(** * Transformers over the dimensions of a search space

    A shallow embedding of [metaopt.core.worker.transformer]:
    the [Transformer] class hierarchy ([Identity], [Compose] and client
    subclasses), [TransformedDimension], [TransformedSpace] and the
    orchestrator [build_required_space], followed by the properties the
    specification states about them.

    Python exceptions are values of an error monad, the list that
    [Compose.__init__] consumes with [pop] is threaded as explicit state, and
    the collaborators that live in other modules ([Dimension], [Space]) are
    records and definitions of their interface. *)

From Stdlib Require Import String List ZArith Bool Arith Lia Floats.
From Equations Require Import Equations.
Import ListNotations.

Local Open Scope string_scope.
Local Open Scope list_scope.

(** ** Exceptions *)

Inductive exn : Type :=
| IndexError
| TypeError (msg : string)
| Exception (msg : string).

Inductive result (A : Type) : Type :=
| Ok (a : A)
| Raise (e : exn).

Arguments Ok {A} a.
Arguments Raise {A} e.

Definition bind {A B : Type} (m : result A) (k : A -> result B) : result B :=
  match m with
  | Ok a => k a
  | Raise e => Raise e
  end.

Declare Scope py_scope.
Delimit Scope py_scope with py.
Notation "x <- m ;; k" := (bind m (fun x => k))
  (at level 61, m at next level, right associativity) : py_scope.
Notation "m ;;; k" := (bind m (fun _ => k))
  (at level 61, right associativity) : py_scope.
Local Open Scope py_scope.

(** A list comprehension [[f(x) for x in xs]]: elements are evaluated from
    left to right and the first exception ends the evaluation. *)
Fixpoint comprehension {A B : Type} (f : A -> result B) (xs : list A)
  : result (list B) :=
  match xs with
  | [] => Ok []
  | x :: xs' =>
      y <- f x ;;
      ys <- comprehension f xs' ;;
      Ok (y :: ys)
  end.

(** [enumerate(xs)] *)
Fixpoint enumerate_from {A : Type} (i : nat) (xs : list A) : list (nat * A) :=
  match xs with
  | [] => []
  | x :: xs' => (i, x) :: enumerate_from (S i) xs'
  end.

Definition enumerate {A : Type} (xs : list A) : list (nat * A) :=
  enumerate_from 0 xs.

(** [xs[i]] for a non-negative index. *)
Definition getitem {A : Type} (xs : list A) (i : nat) : result A :=
  match nth_error xs i with
  | Some x => Ok x
  | None => Raise IndexError
  end.

(** [xs[-1]] *)
Definition getitem_last {A : Type} (xs : list A) : result A :=
  match rev xs with
  | x :: _ => Ok x
  | [] => Raise IndexError
  end.

(** [xs.pop()]: the popped element (or [IndexError]) and the list as the
    call leaves it. *)
Definition list_pop {A : Type} (xs : list A) : result A * list A :=
  match rev xs with
  | x :: r => (Ok x, rev r)
  | [] => (Raise IndexError, xs)
  end.

(** A type tag is a Python string, or [None] (the value of
    [Transformer.target_type] in the abstract base class). *)
Definition type_tag : Type := option string.

(** [tag != s] for a string literal [s]. *)
Definition tag_ne (tag : type_tag) (s : string) : bool :=
  match tag with
  | Some s' => negb (String.eqb s' s)
  | None => true
  end.

(** [tag == s] for a string literal [s]. *)
Definition tag_eq (tag : type_tag) (s : string) : bool :=
  negb (tag_ne tag s).

(** ['{}'.format(tag)] *)
Definition format_tag (tag : type_tag) : string :=
  match tag with
  | Some s => s
  | None => "None"
  end.

(** The shape of a dimension: a tuple of integers. *)
Definition shape : Type := list Z.

(** ** The class hierarchy *)

Section Transformers.

Context {point : Type}.

(** *** [class Transformer]: defaults of the abstract base class *)

Definition Transformer_target_type : type_tag := None.

Definition Transformer_infer_target_shape (shp : shape) : result shape :=
  Ok shp.

Definition Transformer_repr_format (class_name what : string) : result string :=
  Ok (class_name ++ "(" ++ what ++ ")")%string.

(** A concrete subclass written by a client: its name, its class attribute
    [target_type] and its four methods. *)
Record Subclass : Type := {
  sub_name : string;
  sub_target_type : type_tag;
  sub_transform : point -> result point;
  sub_reverse : point -> result point;
  sub_infer_target_shape : shape -> result shape;
  sub_repr_format : string -> result string
}.

(** A subclass that overrides only what the base class leaves abstract. *)
Definition minimal_subclass (name : string) (tag : type_tag)
    (f g : point -> result point) : Subclass :=
  {| sub_name := name;
     sub_target_type := tag;
     sub_transform := f;
     sub_reverse := g;
     sub_infer_target_shape := Transformer_infer_target_shape;
     sub_repr_format := Transformer_repr_format name |}.

(** Transformer objects. A [Compose] object has the two attributes
    [composition] and [apply]. *)
Inductive Transformer : Type :=
| Identity
| Compose (composition apply : Transformer)
| Custom (cls : Subclass).

Fixpoint transform (self : Transformer) (pt : point) : result point :=
  match self with
  | Identity => Ok pt
  | Compose composition apply =>
      pt' <- transform composition pt ;;
      transform apply pt'
  | Custom cls => sub_transform cls pt
  end.

Fixpoint reverse (self : Transformer) (transformed_point : point)
  : result point :=
  match self with
  | Identity => Ok transformed_point
  | Compose composition apply =>
      transformed_point' <- reverse apply transformed_point ;;
      reverse composition transformed_point'
  | Custom cls => sub_reverse cls transformed_point
  end.

Fixpoint infer_target_shape (self : Transformer) (shp : shape) : result shape :=
  match self with
  | Identity => Transformer_infer_target_shape shp
  | Compose composition apply =>
      shp' <- infer_target_shape composition shp ;;
      infer_target_shape apply shp'
  | Custom cls => sub_infer_target_shape cls shp
  end.

Fixpoint repr_format (self : Transformer) (what : string) : result string :=
  match self with
  | Identity => Ok what
  | Compose composition apply =>
      inner <- repr_format composition what ;;
      repr_format apply inner
  | Custom cls => sub_repr_format cls what
  end.

Fixpoint target_type (self : Transformer) : type_tag :=
  match self with
  | Identity => Some "invariant"
  | Compose composition apply =>
      let type_before := target_type composition in
      let type_after := target_type apply in
      if tag_ne type_after "invariant" then type_after else type_before
  | Custom cls => sub_target_type cls
  end.

(** *** [Compose.__init__]

    The constructor receives a reference to the caller's list and consumes
    it with [pop]; it is modelled on the contents of that list and returns
    the object together with the contents the list is left with. *)

Definition popped_or_Identity (r : result Transformer) : Transformer :=
  match r with
  | Ok t => t
  | Raise _ => Identity
  end.

(** Keeps the equation of a matched call, for the termination argument. *)
Definition inspect {A : Type} (a : A) : {b : A | a = b} :=
  exist _ a eq_refl.

Equations Compose_init (transformers : list Transformer)
  : Transformer * list Transformer by wf (length transformers) lt :=
  Compose_init transformers with inspect (list_pop transformers) := {
    | exist _ (r, []) _ := (Compose Identity (popped_or_Identity r), []);
    | exist _ (r, t :: rest) e with Compose_init (t :: rest) := {
        | (composition, left_over) :=
            (Compose composition (popped_or_Identity r), left_over) } }.
Next Obligation.
  unfold list_pop in e.
  rewrite <- (length_rev transformers).
  destruct (rev transformers) as [|x l] eqn:E.
  - apply (f_equal (@rev Transformer)) in E. rewrite rev_involutive in E.
    simpl in E. subst transformers. inversion e.
  - inversion e as [[Hr Hl]]. simpl.
    rewrite <- (length_rev l), Hl. simpl. lia.
Qed.

End Transformers.

Arguments Subclass point : clear implicits.
Arguments Transformer point : clear implicits.

(** ** Collaborators from [metaopt.algo.space] *)

(** The interface of a [Dimension] that this module calls: the attributes
    [name], [type] and [shape], [sample(n_samples, seed)],
    [interval(alpha)], the membership test and [repr]. *)
Record Dimension (point : Type) : Type := {
  dim_name : string;
  dim_type : string;
  dim_shape : shape;
  dim_sample : Z -> option Z -> result (list point);
  dim_interval : float -> result (point * point);
  dim_contains : point -> result bool;
  dim_repr : string
}.

Arguments dim_name {point} _.
Arguments dim_type {point} _.
Arguments dim_shape {point} _.
Arguments dim_sample {point} _ _ _.
Arguments dim_interval {point} _ _.
Arguments dim_contains {point} _ _.
Arguments dim_repr {point} _.

(** Modelled from the spec: the class [Space] of [metaopt.algo.space], which
    [TransformedSpace] inherits [register] and [values] from, is not part of
    this module. The specification describes it as an ordered mapping from
    dimension name to dimension whose [register] adds an entry keyed by the
    dimension's name and keeps insertion order; [values()] lists the entries
    in that order. An entry registered under a name that is already present
    takes the place of the older one, as in any mapping. *)
Module Space.
Section WithEntries.

Context {entry : Type}.
Variable name_of : entry -> string.

Definition t : Type := list (string * entry).

Definition empty : t := [].

Fixpoint setitem (self : t) (key : string) (value : entry) : t :=
  match self with
  | [] => [(key, value)]
  | (k, v) :: rest =>
      if String.eqb k key then (k, value) :: rest
      else (k, v) :: setitem rest key value
  end.

Definition register (self : t) (dimension : entry) : t :=
  setitem self (name_of dimension) dimension.

Definition values (self : t) : list entry :=
  map snd self.

End WithEntries.
End Space.

(** ** [class TransformedDimension] *)

Module TransformedDimension.
Section WithPoint.

Context {point : Type}.

Record t : Type := init {
  transformer : Transformer point;
  original_dimension : Dimension point
}.

Definition transform (self : t) (pt : point) : result point :=
  transform (transformer self) pt.

Definition reverse (self : t) (transformed_point : point) : result point :=
  reverse (transformer self) transformed_point.

Definition sample (self : t) (n_samples : Z) (seed : option Z)
  : result (list point) :=
  samples <- dim_sample (original_dimension self) n_samples seed ;;
  comprehension (transform self) samples.

Definition interval (self : t) (alpha : float) : result (point * point) :=
  bounds <- dim_interval (original_dimension self) alpha ;;
  low <- transform self (fst bounds) ;;
  high <- transform self (snd bounds) ;;
  Ok (low, high).

Definition contains (self : t) (pt : point) : result bool :=
  orig_point <- reverse self pt ;;
  dim_contains (original_dimension self) orig_point.

Definition repr (self : t) : result string :=
  repr_format (transformer self) (dim_repr (original_dimension self)).

Definition name (self : t) : string :=
  dim_name (original_dimension self).

Definition type (self : t) : type_tag :=
  let type_ := target_type (transformer self) in
  if tag_ne type_ "invariant" then type_
  else Some (dim_type (original_dimension self)).

Definition shape (self : t) : result shape :=
  infer_target_shape (transformer self) (dim_shape (original_dimension self)).

End WithPoint.

Arguments t point : clear implicits.

(** Default arguments of [sample] and [interval]. *)
Definition default_n_samples : Z := 1.
Definition default_seed : option Z := None.
Definition default_alpha : float := 1.0%float.

End TransformedDimension.

(** ** [class TransformedSpace] *)

Module TransformedSpace.
Section WithPoint.

Context {point : Type}.

Definition t : Type := @Space.t (TransformedDimension.t point).

Definition empty : t := Space.empty.

Definition register (self : t) (dimension : TransformedDimension.t point) : t :=
  Space.register TransformedDimension.name self dimension.

Definition values (self : t) : list (TransformedDimension.t point) :=
  Space.values self.

Definition transform (self : t) (pt : list point) : result (list point) :=
  comprehension
    (fun '(i, dim) =>
       coordinate <- getitem pt i ;;
       TransformedDimension.transform dim coordinate)
    (enumerate (values self)).

Definition reverse (self : t) (transformed_point : list point)
  : result (list point) :=
  comprehension
    (fun '(i, dim) =>
       coordinate <- getitem transformed_point i ;;
       TransformedDimension.reverse dim coordinate)
    (enumerate (values self)).

End WithPoint.

Arguments t point : clear implicits.

End TransformedSpace.

(** ** [build_required_space] *)

Section BuildRequiredSpace.

Context {point : Type}.

(** The [requirements] argument: a list, or a single requirement. *)
Inductive requirements_arg : Type :=
| RequirementList (requirements : list string)
| Requirement (requirement : string).

Definition normalize_requirements (requirements : requirements_arg)
  : list string :=
  match requirements with
  | RequirementList l => l
  | Requirement r => [r]
  end.

(** A [for] loop whose body may raise. *)
Fixpoint for_each {A S : Type} (body : S -> A -> result S) (xs : list A)
    (s : S) : result S :=
  match xs with
  | [] => Ok s
  | x :: xs' =>
      s' <- body s x ;;
      for_each body xs' s'
  end.

(** The body of the loop over the requirements, on the loop's variables
    [transformers] and [type_]. No branch appends to [transformers]. *)
Definition requirement_step
    (vars : list (Transformer point) * type_tag) (requirement : string)
  : result (list (Transformer point) * type_tag) :=
  let transformers := fst vars in
  let type_ := snd vars in
  (if tag_eq type_ "real" then Ok tt
   else if tag_eq type_ "integer" then Ok tt
   else if tag_eq type_ "categorical" then Ok tt
   else Raise (TypeError
     ("Unsupported dimension type '" ++ format_tag type_ ++ "'")%string)) ;;;
  last <- getitem_last transformers ;;
  let last_type := target_type last in
  Ok (transformers, if tag_ne last_type "invariant" then last_type else type_).

(** The body of the loop over the dimensions, on the space being built. *)
Definition dimension_step (requirements : list string)
    (space : TransformedSpace.t point) (dim : Dimension point)
  : result (TransformedSpace.t point) :=
  vars <- for_each requirement_step requirements ([], Some (dim_type dim)) ;;
  let transformers := fst vars in
  Ok (TransformedSpace.register space
        (TransformedDimension.init (fst (Compose_init transformers)) dim)).

(** [original_space] is given by the list [original_space.values()]. *)
Definition build_required_space (requirements : requirements_arg)
    (original_space : list (Dimension point))
  : result (TransformedSpace.t point) :=
  let requirements := normalize_requirements requirements in
  for_each (dimension_step requirements) original_space TransformedSpace.empty.

End BuildRequiredSpace.

(** ** Notions used to state the properties *)

Section Statements.

Context {point : Type}.

(** Applying a list of steps one after the other, in list order; an
    exception ends the sequence. *)
Definition in_sequence (step : Transformer point -> point -> result point)
    (ts : list (Transformer point)) (x : point) : result point :=
  fold_left (fun acc t => p <- acc ;; step t p) ts (Ok x).

(** [t1.transform], then [t2.transform], ..., then [tn.transform]. *)
Definition transform_each_in_order (ts : list (Transformer point)) (x : point)
  : result point :=
  in_sequence transform ts x.

(** [tn.reverse], then ..., then [t1.reverse]. *)
Definition reverse_each_in_reverse_order (ts : list (Transformer point))
    (y : point) : result point :=
  in_sequence reverse (rev ts) y.

(** [t] maps every point of [dom] to a point that [t.reverse] maps back. *)
Definition round_trip_on (dom : point -> Prop) (t : Transformer point) : Prop :=
  forall x, dom x -> exists y, transform t x = Ok y /\ reverse t y = Ok x.

(** The domain of a chain: [x] is in the domain of the first transformer,
    its image in the domain of the second, and so on. *)
Fixpoint chain_domain (dom : Transformer point -> point -> Prop)
    (ts : list (Transformer point)) (x : point) : Prop :=
  match ts with
  | [] => True
  | t :: ts' =>
      dom t x /\ forall y, transform t x = Ok y -> chain_domain dom ts' y
  end.

(** The dimension types that [build_required_space] has a branch for. *)
Definition recognized (d : Dimension point) : bool :=
  (dim_type d =? "real")%string
  || (dim_type d =? "integer")%string
  || (dim_type d =? "categorical")%string.

(** The way [build_required_space] wraps the dimensions when it is given an
    empty list of requirements. *)
Definition wrap_unchanged (d : Dimension point) : TransformedDimension.t point :=
  TransformedDimension.init (fst (Compose_init [])) d.

(** Passing a value through one method of each transformer of a list, in
    list order; an exception ends the sequence. *)
Definition thread {A : Type} (method : Transformer point -> A -> result A)
    (ts : list (Transformer point)) (a : A) : result A :=
  fold_left (fun acc t => v <- acc ;; method t v) ts (Ok a).

(** The target type that is in force after a list of transformers, when
    [incoming] was in force before it: the one of the last transformer that
    is not ['invariant']. *)
Definition propagate (incoming : type_tag) (ts : list (Transformer point))
  : type_tag :=
  fold_left
    (fun acc t => if tag_ne (target_type t) "invariant" then target_type t
                  else acc)
    ts incoming.

(** The text that the base class's [repr_format] of classes named [names]
    builds around [what], the first name innermost. *)
Definition nest (names : list string) (what : string) : string :=
  fold_left (fun acc name => (name ++ "(" ++ acc ++ ")")%string) names what.

(** The [apply] attributes of a composite along its [composition]
    attributes, innermost first. *)
Fixpoint spine (self : Transformer point) : list (Transformer point) :=
  match self with
  | Compose composition apply => spine composition ++ [apply]
  | _ => []
  end.

End Statements.

(** ** Sample objects *)

Module Samples.

(** A real dimension [x] on the interval [(0.0, 10.0)]. *)
Definition x_real : Dimension float :=
  {| dim_name := "x";
     dim_type := "real";
     dim_shape := [];
     dim_sample := fun n _ => Ok (repeat 5.0%float (Z.to_nat n));
     dim_interval := fun _ => Ok (0.0%float, 10.0%float);
     dim_contains := fun p => Ok (PrimFloat.leb 0.0 p && PrimFloat.leb p 10.0);
     dim_repr := "Real(name=x, prior={uniform: (0.0, 10.0)})" |}.

(** A dimension of a type that [build_required_space] has no branch for. *)
Definition y_unknown : Dimension float :=
  {| dim_name := "y";
     dim_type := "unknown";
     dim_shape := [];
     dim_sample := fun n _ => Ok (repeat 1.0%float (Z.to_nat n));
     dim_interval := fun _ => Ok (0.0%float, 1.0%float);
     dim_contains := fun _ => Ok true;
     dim_repr := "Unknown(name=y)" |}.

(** An integer dimension over [Z]. *)
Definition k_integer : Dimension Z :=
  {| dim_name := "k";
     dim_type := "integer";
     dim_shape := [];
     dim_sample := fun n seed =>
       Ok (map (fun i => Z.of_nat i + match seed with Some s => s | None => 0 end)%Z
               (seq 0 (Z.to_nat n)));
     dim_interval := fun _ => Ok (0, 100)%Z;
     dim_contains := fun p => Ok ((0 <=? p) && (p <=? 100))%Z;
     dim_repr := "Integer(name=k)" |}.

Definition m_integer : Dimension Z :=
  {| dim_name := "m";
     dim_type := "integer";
     dim_shape := [];
     dim_sample := fun n _ => Ok (repeat 7%Z (Z.to_nat n));
     dim_interval := fun _ => Ok (0, 10)%Z;
     dim_contains := fun p => Ok ((0 <=? p) && (p <=? 10))%Z;
     dim_repr := "Integer(name=m)" |}.

(** [Shift]: adds one; [Double]: multiplies by two and quantizes on the way
    back. *)
Definition Shift : Transformer Z :=
  Custom (minimal_subclass "Shift" (Some "invariant")
            (fun p => Ok (p + 1)%Z) (fun p => Ok (p - 1)%Z)).

Definition Double : Transformer Z :=
  Custom (minimal_subclass "Double" (Some "integer")
            (fun p => Ok (2 * p)%Z) (fun p => Ok (p / 2)%Z)).

End Samples.

(** * Properties *)

(** ** The error monad and list access *)

Lemma bind_Ok_inv {A B : Type} (m : result A) (k : A -> result B) (b : B) :
  bind m k = Ok b -> exists a, m = Ok a /\ k a = Ok b.
Proof.
  destruct m as [a|e]; simpl; intros H; [eauto | discriminate].
Qed.

Lemma list_pop_nil {A : Type} : @list_pop A [] = (Raise IndexError, []).
Proof. reflexivity. Qed.

Lemma list_pop_snoc {A : Type} (l : list A) (x : A) :
  list_pop (l ++ [x]) = (Ok x, l).
Proof.
  unfold list_pop. rewrite rev_unit, rev_involutive. reflexivity.
Qed.

(** ** [Compose.__init__] *)

Section ComposeInit.

Context {point : Type}.
Implicit Types (t : Transformer point) (l ts : list (Transformer point)).

(** One step of the constructor, as the source reads. *)
Lemma Compose_init_step l :
  Compose_init l =
  match snd (list_pop l) with
  | [] => (Compose Identity (popped_or_Identity (fst (list_pop l))), [])
  | t :: rest =>
      (Compose (fst (Compose_init (t :: rest)))
               (popped_or_Identity (fst (list_pop l))),
       snd (Compose_init (t :: rest)))
  end.
Proof.
  rewrite Compose_init_equation_1.
  destruct (inspect (list_pop l)) as [[r [|t rest]] e]; simpl.
  - rewrite e. reflexivity.
  - destruct (Compose_init (t :: rest)) as [c lo] eqn:E; simpl.
    rewrite e. simpl. rewrite E. reflexivity.
Qed.

Lemma Compose_init_nil :
  @Compose_init point [] = (Compose Identity Identity, []).
Proof. rewrite Compose_init_step. reflexivity. Qed.

Lemma Compose_init_left_over l : snd (Compose_init l) = [].
Proof.
  induction l as [|t l IH] using rev_ind.
  - rewrite Compose_init_nil. reflexivity.
  - rewrite Compose_init_step, list_pop_snoc. simpl.
    destruct l; [reflexivity | exact IH].
Qed.

Lemma Compose_init_snoc l t :
  fst (Compose_init (l ++ [t])) =
  Compose (match l with
           | [] => Identity
           | _ :: _ => fst (Compose_init l)
           end) t.
Proof.
  rewrite Compose_init_step, list_pop_snoc. simpl.
  destruct l; reflexivity.
Qed.

(** ** Sequences of steps *)

Section InSequence.

Variable step : Transformer point -> point -> result point.

Lemma in_sequence_fold_Raise ts (e : exn) :
  fold_left (fun acc t => p <- acc ;; step t p) ts (Raise e) = Raise e.
Proof. induction ts as [|t ts IH]; simpl; auto. Qed.

Lemma in_sequence_fold ts (m : result point) :
  fold_left (fun acc t => p <- acc ;; step t p) ts m =
  (p <- m ;; in_sequence step ts p).
Proof.
  destruct m as [a|e]; simpl; [reflexivity | apply in_sequence_fold_Raise].
Qed.

Lemma in_sequence_nil x : in_sequence step [] x = Ok x.
Proof. reflexivity. Qed.

Lemma in_sequence_cons t ts x :
  in_sequence step (t :: ts) x = (p <- step t x ;; in_sequence step ts p).
Proof. unfold in_sequence at 1. simpl. apply in_sequence_fold. Qed.

Lemma in_sequence_snoc ts t x :
  in_sequence step (ts ++ [t]) x = (p <- in_sequence step ts x ;; step t p).
Proof. unfold in_sequence. rewrite fold_left_app. reflexivity. Qed.

End InSequence.

Lemma Compose_init_transform ts x :
  transform (fst (Compose_init ts)) x = transform_each_in_order ts x.
Proof.
  unfold transform_each_in_order. revert x.
  induction ts as [|t ts IH] using rev_ind; intros x.
  - rewrite Compose_init_nil. reflexivity.
  - rewrite Compose_init_snoc, in_sequence_snoc. simpl.
    destruct ts as [|t0 ts0]; [reflexivity | rewrite IH; reflexivity].
Qed.

Lemma Compose_init_reverse ts y :
  reverse (fst (Compose_init ts)) y = reverse_each_in_reverse_order ts y.
Proof.
  unfold reverse_each_in_reverse_order. revert y.
  induction ts as [|t ts IH] using rev_ind; intros y.
  - rewrite Compose_init_nil. reflexivity.
  - rewrite Compose_init_snoc, rev_unit, in_sequence_cons. simpl.
    destruct (reverse t y) as [p|e]; simpl; [|reflexivity].
    destruct ts as [|t0 ts0]; [reflexivity | apply IH].
Qed.

Lemma in_order_round_trip (dom : Transformer point -> point -> Prop) ts :
  Forall (fun t => round_trip_on (dom t) t) ts ->
  forall x, chain_domain dom ts x ->
  exists y, transform_each_in_order ts x = Ok y
            /\ reverse_each_in_reverse_order ts y = Ok x.
Proof.
  unfold transform_each_in_order, reverse_each_in_reverse_order.
  induction 1 as [|t ts Ht Hts IH]; intros x Hx.
  - exists x. split; reflexivity.
  - destruct Hx as [Hdom Hnext].
    destruct (Ht x Hdom) as (z & Hfwd & Hbwd).
    destruct (IH z (Hnext z Hfwd)) as (y & Hy & Hback).
    exists y. split.
    + rewrite in_sequence_cons, Hfwd. exact Hy.
    + simpl rev. rewrite in_sequence_snoc, Hback. exact Hbwd.
Qed.

(** C1. A composite built from transformers that each satisfy
    [reverse(transform(x)) == x] on their domain satisfies it on the domain
    of the chain: [transform] succeeds there and [reverse] maps its result
    back to [x]. *)
Theorem Compose_round_trip (dom : Transformer point -> point -> Prop) ts :
  Forall (fun t => round_trip_on (dom t) t) ts ->
  forall x, chain_domain dom ts x ->
  exists y, transform (fst (Compose_init ts)) x = Ok y
            /\ reverse (fst (Compose_init ts)) y = Ok x.
Proof.
  intros Hts x Hx.
  destruct (in_order_round_trip dom ts Hts x Hx) as (y & Hfwd & Hbwd).
  exists y. rewrite Compose_init_transform, Compose_init_reverse. auto.
Qed.

(** C2. The composite of [[t1; ...; tn]] transforms a point as [t1], then
    [t2], ..., then [tn] do one after the other, and reverses it as
    [tn.reverse], then ..., then [t1.reverse] do. *)
Theorem Compose_applies_in_list_order ts x :
  transform (fst (Compose_init ts)) x = transform_each_in_order ts x
  /\ reverse (fst (Compose_init ts)) x = reverse_each_in_reverse_order ts x.
Proof.
  split; [apply Compose_init_transform | apply Compose_init_reverse].
Qed.

(** C3. The composite of the empty list behaves as [Identity]:
    [transform], [reverse], [infer_target_shape] and [repr_format] return
    their argument and [target_type] is ['invariant']. *)
Theorem Compose_empty_is_Identity (pt : point) (shp : shape) (what : string) :
  let empty_composite := fst (@Compose_init point []) in
  (transform empty_composite pt = Ok pt
   /\ transform empty_composite pt = transform Identity pt)
  /\ (reverse empty_composite pt = Ok pt
      /\ reverse empty_composite pt = reverse Identity pt)
  /\ (infer_target_shape empty_composite shp = Ok shp
      /\ infer_target_shape empty_composite shp
         = infer_target_shape (@Identity point) shp)
  /\ (repr_format empty_composite what = Ok what
      /\ repr_format empty_composite what = repr_format (@Identity point) what)
  /\ (target_type empty_composite = Some "invariant"
      /\ target_type empty_composite = target_type (@Identity point)).
Proof.
  rewrite Compose_init_nil. simpl. repeat split; reflexivity.
Qed.

(** The [composition] attribute of a composite has the target type of the
    composite of the elements before the last one. *)
Lemma inner_target_type l :
  target_type (match l with
               | [] => Identity
               | _ :: _ => fst (Compose_init l)
               end) = target_type (fst (Compose_init l)).
Proof.
  destruct l; [rewrite Compose_init_nil; reflexivity | reflexivity].
Qed.

Lemma Compose_init_target_type l t :
  target_type (fst (Compose_init (l ++ [t]))) =
  if tag_ne (target_type t) "invariant" then target_type t
  else target_type (fst (Compose_init l)).
Proof.
  rewrite Compose_init_snoc. simpl. rewrite inner_target_type. reflexivity.
Qed.

(** C4. The target type of a composite is the one of the last transformer
    of the list unless that is ['invariant'], and then the one of the
    composite of the transformers before it; a chain that ends with an
    ['integer'] transformer followed by an ['invariant'] one has target type
    ['integer']. *)
Theorem Compose_target_type_propagation l (before last : Transformer point) :
  (forall composition apply : Transformer point,
      target_type (Compose composition apply) =
      if tag_ne (target_type apply) "invariant" then target_type apply
      else target_type composition)
  /\ target_type (fst (Compose_init (l ++ [last]))) =
     (if tag_ne (target_type last) "invariant" then target_type last
      else target_type (fst (Compose_init l)))
  /\ (target_type last = Some "invariant" ->
      target_type before = Some "integer" ->
      target_type (fst (Compose_init (l ++ [before; last]))) = Some "integer").
Proof.
  split; [reflexivity | split].
  - apply Compose_init_target_type.
  - intros Hlast Hbefore.
    change (l ++ [before; last]) with (l ++ [before] ++ [last]).
    rewrite app_assoc, !Compose_init_target_type, Hlast, Hbefore.
    reflexivity.
Qed.

End ComposeInit.

(** C1, on the chain [[Shift; Double]] over the integers. *)
Lemma Compose_round_trip_witness :
  Forall (fun t => round_trip_on (fun _ : Z => True) t)
         [Samples.Shift; Samples.Double]
  /\ chain_domain (fun _ _ => True) [Samples.Shift; Samples.Double] 3%Z
  /\ exists y,
       transform (fst (Compose_init [Samples.Shift; Samples.Double])) 3%Z = Ok y
       /\ reverse (fst (Compose_init [Samples.Shift; Samples.Double])) y
          = Ok 3%Z.
Proof.
  assert (Hts : Forall (fun t => round_trip_on (fun _ : Z => True) t)
                       [Samples.Shift; Samples.Double]).
  { apply Forall_cons; [|apply Forall_cons; [|apply Forall_nil]];
      intros x _; eexists; (split; [reflexivity|]).
    - change (Ok (x + 1 - 1)%Z = Ok x). f_equal. lia.
    - change (Ok (2 * x / 2)%Z = Ok x). f_equal.
      rewrite Z.mul_comm. apply Z.div_mul. lia. }
  assert (Hx : chain_domain (fun _ _ => True)
                 [Samples.Shift; Samples.Double] 3%Z).
  { simpl. auto. }
  split; [exact Hts | split; [exact Hx |]].
  exact (Compose_round_trip (fun _ _ => True) _ Hts 3%Z Hx).
Defined.

(** C4, on the chain [[Shift; Double; Shift]]: [Double] is ['integer'] and
    the trailing [Shift] is ['invariant']. *)
Lemma Compose_target_type_propagation_witness :
  target_type Samples.Shift = Some "invariant"
  /\ target_type Samples.Double = Some "integer"
  /\ target_type
       (fst (Compose_init
               ([Samples.Shift] ++ [Samples.Double; Samples.Shift])))
     = Some "integer".
Proof.
  split; [reflexivity | split; [reflexivity |]].
  apply (Compose_target_type_propagation
           [Samples.Shift] Samples.Double Samples.Shift); reflexivity.
Defined.

(** C10, as stated, fails on a list of one transformer: the constructor
    leaves the caller's list empty. *)
Lemma Compose_init_changes_caller_list :
  snd (Compose_init [Samples.Shift]) = []
  /\ snd (Compose_init [Samples.Shift]) <> [Samples.Shift].
Proof.
  split; [reflexivity | rewrite Compose_init_left_over; discriminate].
Qed.

(** ** List comprehensions *)

Section Comprehension.

Context {A B : Type}.
Variable f : A -> result B.

Lemma comprehension_Ok_iff (xs : list A) (ys : list B) :
  comprehension f xs = Ok ys <-> Forall2 (fun x y => f x = Ok y) xs ys.
Proof.
  revert ys. induction xs as [|x xs IH]; intros ys; simpl.
  - split; intros H.
    + inversion H. constructor.
    + inversion H. reflexivity.
  - split; intros H.
    + apply bind_Ok_inv in H. destruct H as (y & Hy & H).
      apply bind_Ok_inv in H. destruct H as (ys' & Hys & H).
      inversion H; subst. constructor; [exact Hy | apply IH; exact Hys].
    + inversion H as [|x0 y xs0 ys' Hy Hys]; subst.
      rewrite Hy. simpl. apply IH in Hys. rewrite Hys. reflexivity.
Qed.

Lemma comprehension_total (xs : list A) :
  (forall x, In x xs -> exists y, f x = Ok y) ->
  exists ys, comprehension f xs = Ok ys.
Proof.
  induction xs as [|x xs IH]; intros H; simpl.
  - eauto.
  - destruct (H x (or_introl eq_refl)) as (y & Hy).
    destruct IH as (ys & Hys); [intros; apply H; right; assumption|].
    rewrite Hy, Hys. simpl. eauto.
Qed.

Lemma comprehension_Raise_first (x : A) (xs : list A) (e : exn) :
  f x = Raise e -> comprehension f (x :: xs) = Raise e.
Proof. intros H. simpl. rewrite H. reflexivity. Qed.

End Comprehension.

Lemma Forall2_pointwise {A B : Type} (R : A -> B -> Prop) (xs : list A)
    (ys : list B) :
  Forall2 R xs ys ->
  length ys = length xs
  /\ forall i x, nth_error xs i = Some x ->
       exists y, nth_error ys i = Some y /\ R x y.
Proof.
  induction 1 as [|x y xs ys Hxy H IH]; simpl.
  - split; [reflexivity | intros [|i] x H; discriminate].
  - destruct IH as [Hlen Hnth]. split; [congruence|].
    intros [|i] x0 H0; simpl in *.
    + inversion H0; subst. eauto.
    + apply Hnth. exact H0.
Qed.

Lemma nth_error_combine {A B : Type} (xs : list A) (ys : list B) i x y :
  nth_error xs i = Some x -> nth_error ys i = Some y ->
  nth_error (combine xs ys) i = Some (x, y).
Proof.
  revert ys i. induction xs as [|x0 xs IH]; intros [|y0 ys] [|i]; simpl;
    try discriminate.
  - intros Hx Hy. congruence.
  - apply IH.
Qed.

(** ** [TransformedDimension.sample] *)

(** C8. [sample(n, seed)] is the list of the transforms of the samples that
    the original dimension draws for [n] and [seed], one by one and in the
    same order; it has as many elements as the original draw, hence [n]
    when the draw has [n]; an exception of the draw is passed on. *)
Theorem sample_is_transform_of_samples {point : Type}
    (self : TransformedDimension.t point) (n : Z) (seed : option Z) :
  let draw :=
    dim_sample (TransformedDimension.original_dimension self) n seed in
  (forall e, draw = Raise e -> TransformedDimension.sample self n seed = Raise e)
  /\ (forall xs, draw = Ok xs ->
        TransformedDimension.sample self n seed
        = comprehension (TransformedDimension.transform self) xs
        /\ (forall ys, TransformedDimension.sample self n seed = Ok ys ->
              length ys = length xs
              /\ (Z.of_nat (length xs) = n -> Z.of_nat (length ys) = n)
              /\ forall i x, nth_error xs i = Some x ->
                   exists y, nth_error ys i = Some y
                             /\ TransformedDimension.transform self x = Ok y)
        /\ ((forall x, In x xs ->
               exists y, TransformedDimension.transform self x = Ok y) ->
            exists ys, TransformedDimension.sample self n seed = Ok ys)).
Proof.
  intros draw. unfold TransformedDimension.sample. fold draw.
  split; [intros e ->; reflexivity|].
  intros xs ->. simpl. split; [reflexivity | split].
  - intros ys Hys. apply comprehension_Ok_iff in Hys.
    apply Forall2_pointwise in Hys. destruct Hys as [Hlen Hnth].
    split; [exact Hlen | split; [congruence | exact Hnth]].
  - apply comprehension_total.
Qed.

(** C8, for three seeded draws of [k] seen through [[Shift; Double]]. *)
Lemma sample_is_transform_of_samples_witness :
  let self := TransformedDimension.init
                (fst (Compose_init [Samples.Shift; Samples.Double]))
                Samples.k_integer in
  dim_sample Samples.k_integer 3%Z (Some 10%Z) = Ok [10; 11; 12]%Z
  /\ TransformedDimension.sample self 3%Z (Some 10%Z)
     = comprehension (TransformedDimension.transform self) [10; 11; 12]%Z
  /\ TransformedDimension.sample self 3%Z (Some 10%Z) = Ok [22; 24; 26]%Z.
Proof.
  intros self.
  assert (Hdraw : dim_sample Samples.k_integer 3%Z (Some 10%Z)
                  = Ok [10; 11; 12]%Z) by reflexivity.
  split; [exact Hdraw | split].
  - exact (proj1 (proj2 (sample_is_transform_of_samples self 3%Z (Some 10%Z))
                    _ Hdraw)).
  - reflexivity.
Defined.

(** ** The ordered mapping of a space *)

Section SpaceOrder.

Context {entry : Type}.
Variable name_of : entry -> string.

Lemma setitem_fresh (self : @Space.t entry) (key : string) (value : entry) :
  ~ In key (map fst self) ->
  Space.setitem self key value = self ++ [(key, value)].
Proof.
  induction self as [|[k v] rest IH]; simpl; intros Hfresh.
  - reflexivity.
  - destruct (String.eqb_spec k key) as [->|Hne].
    + exfalso. apply Hfresh. left. reflexivity.
    + rewrite IH; [reflexivity | intros Hin; apply Hfresh; right; exact Hin].
Qed.

Lemma register_all_fresh (ds : list entry) (self : @Space.t entry) :
  NoDup (map fst self ++ map name_of ds) ->
  fold_left (Space.register name_of) ds self
  = self ++ map (fun d => (name_of d, d)) ds.
Proof.
  revert self. induction ds as [|d ds IH]; intros self Hnodup; simpl.
  - rewrite app_nil_r. reflexivity.
  - simpl in Hnodup. unfold Space.register at 2.
    rewrite setitem_fresh.
    + rewrite IH.
      * rewrite <- app_assoc. reflexivity.
      * rewrite map_app, <- app_assoc. exact Hnodup.
    + intros Hin. apply NoDup_remove_2 in Hnodup. apply Hnodup.
      apply in_or_app. left. exact Hin.
Qed.

Lemma values_of_registered (ds : list entry) :
  NoDup (map name_of ds) ->
  Space.values (fold_left (Space.register name_of) ds Space.empty) = ds.
Proof.
  intros Hnodup. rewrite register_all_fresh by exact Hnodup.
  unfold Space.values, Space.empty. simpl. rewrite map_map. simpl.
  apply map_id.
Qed.

End SpaceOrder.

(** ** Coordinates by position *)

Section Positional.

Context {point D : Type}.
Variable g : D -> point -> result point.

Lemma getitem_middle (pre rest : list point) (c : point) :
  getitem (pre ++ c :: rest) (length pre) = Ok c.
Proof.
  unfold getitem. rewrite nth_error_app2 by lia.
  rewrite Nat.sub_diag. reflexivity.
Qed.

Lemma enumerate_from_positional (dims : list D) (pre rest : list point) :
  length rest = length dims ->
  comprehension
    (fun '(i, dim) => c <- getitem (pre ++ rest) i ;; g dim c)
    (enumerate_from (length pre) dims)
  = comprehension (fun '(dim, c) => g dim c) (combine dims rest).
Proof.
  revert pre rest. induction dims as [|dim dims IH]; intros pre rest Hlen.
  - reflexivity.
  - destruct rest as [|c rest]; [discriminate|].
    simpl. rewrite getitem_middle. simpl.
    destruct (g dim c) as [y|e]; simpl; [|reflexivity].
    specialize (IH (pre ++ [c]) rest).
    rewrite <- app_assoc, length_app, Nat.add_1_r in IH. simpl in IH.
    rewrite IH by (simpl in Hlen; lia). reflexivity.
Qed.

Lemma enumerate_positional (dims : list D) (pt : list point) :
  length pt = length dims ->
  comprehension (fun '(i, dim) => c <- getitem pt i ;; g dim c) (enumerate dims)
  = comprehension (fun '(dim, c) => g dim c) (combine dims pt).
Proof. apply (enumerate_from_positional dims []). Qed.

Lemma combine_pointwise (dims : list D) (pt out : list point) :
  length pt = length dims ->
  comprehension (fun '(dim, c) => g dim c) (combine dims pt) = Ok out ->
  length out = length pt
  /\ forall i dim c, nth_error dims i = Some dim -> nth_error pt i = Some c ->
       exists y, nth_error out i = Some y /\ g dim c = Ok y.
Proof.
  intros Hlen Hout. apply comprehension_Ok_iff in Hout.
  apply Forall2_pointwise in Hout. destruct Hout as [Hl Hnth].
  split.
  - rewrite Hl, length_combine. lia.
  - intros i dim c Hdim Hc.
    destruct (Hnth i (dim, c) (nth_error_combine _ _ _ _ _ Hdim Hc))
      as (y & Hy & Hg).
    eauto.
Qed.

End Positional.

(** ** [build_required_space] *)

Section Build.

Context {point : Type}.
Implicit Types (d dim : Dimension point) (space : list (Dimension point)).

Lemma requirement_step_no_transformer d (requirement : string) :
  requirement_step (point := point) ([], Some (dim_type d)) requirement
  = Raise (if recognized d then IndexError
           else TypeError
                  ("Unsupported dimension type '" ++ dim_type d ++ "'")%string).
Proof.
  unfold requirement_step, recognized, tag_eq, tag_ne. simpl.
  rewrite !negb_involutive.
  destruct (dim_type d =? "real")%string; [reflexivity|].
  destruct (dim_type d =? "integer")%string; [reflexivity|].
  destruct (dim_type d =? "categorical")%string; reflexivity.
Qed.

Lemma build_decided_by_first_dimension (reqs : requirements_arg) d space :
  normalize_requirements reqs <> [] ->
  build_required_space reqs (d :: space)
  = Raise (if recognized d then IndexError
           else TypeError
                  ("Unsupported dimension type '" ++ dim_type d ++ "'")%string).
Proof.
  intros Hreqs. unfold build_required_space.
  destruct (normalize_requirements reqs) as [|r rs]; [contradiction|].
  simpl. unfold dimension_step. simpl.
  rewrite requirement_step_no_transformer. reflexivity.
Qed.

Lemma build_without_requirements (reqs : requirements_arg) space :
  normalize_requirements reqs = [] ->
  build_required_space reqs space
  = Ok (fold_left TransformedSpace.register (map wrap_unchanged space)
          TransformedSpace.empty).
Proof.
  intros Hreqs. unfold build_required_space. rewrite Hreqs.
  generalize (@TransformedSpace.empty point).
  induction space as [|d space IH]; intros acc; simpl.
  - reflexivity.
  - apply IH.
Qed.

Lemma build_returns_wrapped (reqs : requirements_arg) space
    (ts : TransformedSpace.t point) :
  NoDup (map dim_name space) ->
  build_required_space reqs space = Ok ts ->
  TransformedSpace.values ts = map wrap_unchanged space.
Proof.
  intros Hnodup Hbuild.
  destruct (normalize_requirements reqs) as [|r rs] eqn:Hreqs.
  - rewrite build_without_requirements in Hbuild by exact Hreqs.
    inversion Hbuild; subst ts.
    apply (values_of_registered TransformedDimension.name).
    rewrite map_map. exact Hnodup.
  - destruct space as [|d space].
    + inversion Hbuild. reflexivity.
    + rewrite build_decided_by_first_dimension in Hbuild; [discriminate|].
      rewrite Hreqs. discriminate.
Qed.

(** C7, as the code has it. With at least one requirement and a space that
    holds a dimension of a recognized type, [build_required_space] returns
    no space: the first dimension decides, with [IndexError] from the last
    element of the empty list of transformers when its type is recognized,
    and with the [TypeError] of the unsupported type otherwise. *)
Theorem build_required_space_never_returns (reqs : requirements_arg) space :
  normalize_requirements reqs <> [] ->
  existsb recognized space = true ->
  (forall ts, build_required_space reqs space <> Ok ts)
  /\ (forall d rest, space = d :: rest -> recognized d = true ->
        build_required_space reqs space = Raise IndexError)
  /\ (forall d rest, space = d :: rest -> recognized d = false ->
        build_required_space reqs space
        = Raise (TypeError
            ("Unsupported dimension type '" ++ dim_type d ++ "'")%string)).
Proof.
  intros Hreqs Hsome. split; [|split].
  - destruct space as [|d rest]; [discriminate|].
    intros ts. rewrite build_decided_by_first_dimension by exact Hreqs.
    discriminate.
  - intros d rest -> Hd.
    rewrite build_decided_by_first_dimension, Hd by exact Hreqs. reflexivity.
  - intros d rest -> Hd.
    rewrite build_decided_by_first_dimension, Hd by exact Hreqs. reflexivity.
Qed.

End Build.

(** C7, for the real dimension [x] and the requirement ['real']. *)
Lemma build_required_space_never_returns_witness :
  normalize_requirements (RequirementList ["real"]) <> []
  /\ existsb recognized [Samples.x_real] = true
  /\ (forall ts,
        build_required_space (RequirementList ["real"]) [Samples.x_real]
        <> Ok ts)
  /\ build_required_space (RequirementList ["real"]) [Samples.x_real]
     = Raise IndexError.
Proof.
  assert (Hreqs : normalize_requirements (RequirementList ["real"]) <> [])
    by (simpl; discriminate).
  assert (Hsome : existsb recognized [Samples.x_real] = true) by reflexivity.
  destruct (build_required_space_never_returns
              (RequirementList ["real"]) [Samples.x_real] Hreqs Hsome)
    as (Hnever & Hindex & _).
  split; [exact Hreqs | split; [exact Hsome | split; [exact Hnever |]]].
  apply (Hindex Samples.x_real []); reflexivity.
Defined.

(** C7, as stated, fails when a dimension of an unsupported type comes
    before the first recognized one: the call ends with [TypeError] and
    never evaluates [transformers[-1]]. *)
Lemma build_required_space_TypeError_comes_first :
  existsb recognized [Samples.y_unknown; Samples.x_real] = true
  /\ build_required_space (RequirementList ["real"])
       [Samples.y_unknown; Samples.x_real]
     = Raise (TypeError "Unsupported dimension type 'unknown'")
  /\ build_required_space (RequirementList ["real"])
       [Samples.y_unknown; Samples.x_real]
     <> Raise IndexError.
Proof.
  split; [reflexivity | split; [reflexivity | discriminate]].
Qed.

(** C5, on the code: with the unsupported dimension after a real one the
    call ends with [IndexError] before it reaches the unsupported type. *)
Theorem build_required_space_unsupported_second :
  build_required_space (RequirementList ["real"])
    [Samples.x_real; Samples.y_unknown]
  = Raise IndexError.
Proof. reflexivity. Qed.

(** An unsupported type in the first dimension is reported by name. *)
Lemma build_required_space_unsupported_first {point : Type}
    (reqs : requirements_arg) (d : Dimension point)
    (rest : list (Dimension point)) :
  normalize_requirements reqs <> [] ->
  recognized d = false ->
  build_required_space reqs (d :: rest)
  = Raise (TypeError
             ("Unsupported dimension type '" ++ dim_type d ++ "'")%string).
Proof.
  intros Hreqs Hd.
  rewrite build_decided_by_first_dimension, Hd by exact Hreqs. reflexivity.
Qed.

(** C6, on the code: the scenario ends with [IndexError], and no space is
    returned. *)
Theorem build_required_space_invariant_scenario :
  build_required_space (RequirementList ["invariant"]) [Samples.x_real]
  = Raise IndexError.
Proof. reflexivity. Qed.

(** What the scenario expects holds of the dimension [x] wrapped in the
    composite of no transformer. *)
Lemma wrap_unchanged_scenario :
  let x' := wrap_unchanged Samples.x_real in
  TransformedDimension.type x' = Some "real"
  /\ TransformedDimension.transform x' 5.0%float = Ok 5.0%float
  /\ TransformedDimension.reverse x' 5.0%float = Ok 5.0%float
  /\ TransformedDimension.interval x' TransformedDimension.default_alpha
     = Ok (0.0%float, 10.0%float).
Proof. repeat split; reflexivity. Qed.

(** ** [TransformedSpace] *)

(** C9. Registering dimensions of distinct names keeps their order in
    [values()], so that the space [build_required_space] returns lists the
    wrapped dimensions in the order of the original ones; and on a point
    with one coordinate per registered dimension, [transform] (and
    [reverse]) applies the i-th dimension's [transform] (and [reverse]) to
    the i-th coordinate and puts the result at position i. *)
Theorem TransformedSpace_order_and_position {point : Type} :
  (forall tds : list (TransformedDimension.t point),
      NoDup (map TransformedDimension.name tds) ->
      TransformedSpace.values
        (fold_left TransformedSpace.register tds TransformedSpace.empty)
      = tds)
  /\ (forall (reqs : requirements_arg) (space : list (Dimension point)) ts,
        NoDup (map dim_name space) ->
        build_required_space reqs space = Ok ts ->
        TransformedSpace.values ts = map wrap_unchanged space
        /\ map TransformedDimension.original_dimension
             (TransformedSpace.values ts) = space)
  /\ (forall (ts : TransformedSpace.t point) (pt : list point),
        length pt = length (TransformedSpace.values ts) ->
        TransformedSpace.transform ts pt
        = comprehension
            (fun '(dim, c) => TransformedDimension.transform dim c)
            (combine (TransformedSpace.values ts) pt)
        /\ (forall out, TransformedSpace.transform ts pt = Ok out ->
              length out = length pt
              /\ forall i dim c,
                   nth_error (TransformedSpace.values ts) i = Some dim ->
                   nth_error pt i = Some c ->
                   exists y, nth_error out i = Some y
                             /\ TransformedDimension.transform dim c = Ok y)
        /\ ((forall dim c, In (dim, c) (combine (TransformedSpace.values ts) pt) ->
               exists y, TransformedDimension.transform dim c = Ok y) ->
            exists out, TransformedSpace.transform ts pt = Ok out))
  /\ (forall (ts : TransformedSpace.t point) (pt : list point),
        length pt = length (TransformedSpace.values ts) ->
        TransformedSpace.reverse ts pt
        = comprehension
            (fun '(dim, c) => TransformedDimension.reverse dim c)
            (combine (TransformedSpace.values ts) pt)
        /\ (forall out, TransformedSpace.reverse ts pt = Ok out ->
              length out = length pt
              /\ forall i dim c,
                   nth_error (TransformedSpace.values ts) i = Some dim ->
                   nth_error pt i = Some c ->
                   exists y, nth_error out i = Some y
                             /\ TransformedDimension.reverse dim c = Ok y)
        /\ ((forall dim c, In (dim, c) (combine (TransformedSpace.values ts) pt) ->
               exists y, TransformedDimension.reverse dim c = Ok y) ->
            exists out, TransformedSpace.reverse ts pt = Ok out)).
Proof.
  split; [|split; [|split]].
  - intros tds Hnodup.
    apply (values_of_registered TransformedDimension.name). exact Hnodup.
  - intros reqs space ts Hnodup Hbuild.
    pose proof (build_returns_wrapped reqs space ts Hnodup Hbuild) as Hvalues.
    split; [exact Hvalues|].
    rewrite Hvalues, map_map. apply map_id.
  - intros ts pt Hlen. unfold TransformedSpace.transform.
    rewrite enumerate_positional by exact Hlen.
    split; [reflexivity | split].
    + intros out Hout. exact (combine_pointwise _ _ _ _ Hlen Hout).
    + intros Hall. apply comprehension_total. intros [dim c]. apply Hall.
  - intros ts pt Hlen. unfold TransformedSpace.reverse.
    rewrite enumerate_positional by exact Hlen.
    split; [reflexivity | split].
    + intros out Hout. exact (combine_pointwise _ _ _ _ Hlen Hout).
    + intros Hall. apply comprehension_total. intros [dim c]. apply Hall.
Qed.

(** C9, for the dimensions [k] and [m]: registered in that order, returned
    in that order for an empty list of requirements, and transformed
    coordinate by coordinate. *)
Lemma TransformedSpace_order_and_position_witness :
  let k' := TransformedDimension.init Samples.Shift Samples.k_integer in
  let m' := TransformedDimension.init Samples.Double Samples.m_integer in
  let ts := TransformedSpace.register
              (TransformedSpace.register TransformedSpace.empty k') m' in
  TransformedSpace.values ts = [k'; m']
  /\ (forall built,
        build_required_space (RequirementList [])
          [Samples.k_integer; Samples.m_integer] = Ok built ->
        map TransformedDimension.original_dimension
          (TransformedSpace.values built)
        = [Samples.k_integer; Samples.m_integer])
  /\ TransformedSpace.transform ts [3; 4]%Z
     = comprehension (fun '(dim, c) => TransformedDimension.transform dim c)
         [(k', 3%Z); (m', 4%Z)]
  /\ TransformedSpace.reverse ts [4; 8]%Z
     = comprehension (fun '(dim, c) => TransformedDimension.reverse dim c)
         [(k', 4%Z); (m', 8%Z)].
Proof.
  intros k' m' ts.
  destruct (@TransformedSpace_order_and_position Z)
    as (Horder & Hbuilt & Hforward & Hbackward).
  assert (Hnames : NoDup ["k"; "m"]).
  { apply NoDup_cons; [simpl; intros [H|[]]; discriminate|].
    apply NoDup_cons; [simpl; tauto | apply NoDup_nil]. }
  split; [|split; [|split]].
  - apply (Horder [k'; m']). exact Hnames.
  - intros built Hbuild.
    apply (Hbuilt (RequirementList []) _ built); [exact Hnames | exact Hbuild].
  - apply (Hforward ts [3; 4]%Z). reflexivity.
  - apply (Hbackward ts [4; 8]%Z). reflexivity.
Defined.

(** * Further properties of the code *)

(** ** Methods of a composite as sequences over its list *)

Section Thread.

Context {point A : Type}.
Variable method : Transformer point -> A -> result A.

Lemma thread_fold_Raise (ts : list (Transformer point)) (e : exn) :
  fold_left (fun acc t => v <- acc ;; method t v) ts (Raise e) = Raise e.
Proof. induction ts as [|t ts IH]; simpl; auto. Qed.

Lemma thread_fold (ts : list (Transformer point)) (m : result A) :
  fold_left (fun acc t => v <- acc ;; method t v) ts m
  = (v <- m ;; thread method ts v).
Proof.
  destruct m as [a|e]; simpl; [reflexivity | apply thread_fold_Raise].
Qed.

Lemma thread_app (l1 l2 : list (Transformer point)) (a : A) :
  thread method (l1 ++ l2) a = (v <- thread method l1 a ;; thread method l2 v).
Proof.
  unfold thread at 1. rewrite fold_left_app. apply thread_fold.
Qed.

Lemma thread_one (t : Transformer point) (a : A) :
  thread method [t] a = method t a.
Proof. reflexivity. Qed.

Lemma bind_Ok_right (m : result A) : (v <- m ;; Ok v) = m.
Proof. destruct m; reflexivity. Qed.

(** A method that [Identity] leaves to the identity and that [Compose]
    passes to [composition], then to [apply]. *)
Hypothesis method_Identity : forall a, method Identity a = Ok a.
Hypothesis method_Compose : forall composition apply a,
  method (Compose composition apply) a
  = (v <- method composition a ;; method apply v).

Lemma Compose_init_thread (ts : list (Transformer point)) (a : A) :
  method (fst (Compose_init ts)) a = thread method ts a.
Proof.
  revert a. induction ts as [|t ts IH] using rev_ind; intros a.
  - rewrite Compose_init_nil. simpl.
    rewrite method_Compose, method_Identity. simpl. apply method_Identity.
  - rewrite Compose_init_snoc, method_Compose, thread_app.
    destruct ts as [|t0 ts0].
    + rewrite method_Identity. reflexivity.
    + rewrite IH. reflexivity.
Qed.

Lemma inline_thread (l1 l2 l3 : list (Transformer point)) (a : A) :
  method (fst (Compose_init (l1 ++ [fst (Compose_init l2)] ++ l3))) a
  = method (fst (Compose_init (l1 ++ l2 ++ l3))) a.
Proof.
  rewrite !Compose_init_thread.
  rewrite (app_assoc l1 [_] l3), (app_assoc l1 l2 l3), !thread_app.
  destruct (thread method l1 a) as [v|e]; cbn [bind]; [|reflexivity].
  rewrite thread_one, Compose_init_thread. reflexivity.
Qed.

End Thread.

Section CompositeMethods.

Context {point : Type}.
Implicit Types (t : Transformer point) (l ts : list (Transformer point)).

(** X1. [infer_target_shape] of the composite of a list passes the shape
    through the transformers' [infer_target_shape] in list order, and
    [repr_format] builds the text in the same order, the last transformer
    outermost. *)
Theorem Compose_shape_and_repr_in_list_order ts (shp : shape) (what : string) :
  infer_target_shape (fst (Compose_init ts)) shp
  = thread infer_target_shape ts shp
  /\ repr_format (fst (Compose_init ts)) what = thread repr_format ts what.
Proof.
  split; apply Compose_init_thread; reflexivity.
Qed.

Lemma nest_snoc (names : list string) (name what : string) :
  nest (names ++ [name]) what = (name ++ "(" ++ nest names what ++ ")")%string.
Proof. unfold nest. rewrite fold_left_app. reflexivity. Qed.

(** X2. For classes that keep the base class's [repr_format], the composite
    formats [what] as the nest of the class names around it, the name of
    the last transformer outermost. *)
Theorem Compose_repr_format_nests_names (classes : list (Subclass point))
    (what : string) :
  Forall (fun cls => forall w,
            sub_repr_format cls w = Transformer_repr_format (sub_name cls) w)
         classes ->
  repr_format (fst (Compose_init (map Custom classes))) what
  = Ok (nest (map sub_name classes) what).
Proof.
  intros Hdefault.
  rewrite (Compose_init_thread repr_format) by reflexivity.
  revert Hdefault. induction classes as [|cls classes IH] using rev_ind.
  - reflexivity.
  - intros Hdefault. apply Forall_app in Hdefault.
    destruct Hdefault as [Hclasses Hcls].
    rewrite !map_app, thread_app, IH by exact Hclasses. simpl.
    rewrite nest_snoc. unfold thread. simpl.
    inversion Hcls as [|? ? Hfmt _]; subst. apply Hfmt.
Qed.

(** X3. The shape of a dimension seen through transformers that keep the
    base class's [infer_target_shape] is the shape of the original
    dimension. *)
Theorem shape_kept_by_default ts (d : Dimension point) :
  Forall (fun t => forall shp, infer_target_shape t shp = Ok shp) ts ->
  TransformedDimension.shape
    (TransformedDimension.init (fst (Compose_init ts)) d)
  = Ok (dim_shape d).
Proof.
  intros Hkeep. unfold TransformedDimension.shape. simpl.
  rewrite (Compose_init_thread infer_target_shape) by reflexivity.
  generalize (dim_shape d).
  induction Hkeep as [|t ts Ht Hts IH]; intros shp.
  - reflexivity.
  - change (t :: ts) with ([t] ++ ts).
    rewrite thread_app, thread_one, Ht. simpl. apply IH.
Qed.

(** ** Target types along a chain *)

Lemma tag_ne_false (tag : type_tag) (s : string) :
  tag_ne tag s = false <-> tag = Some s.
Proof.
  destruct tag as [s'|]; simpl.
  - rewrite negb_false_iff, String.eqb_eq. split; congruence.
  - split; discriminate.
Qed.

Lemma propagate_snoc (incoming : type_tag) ts t :
  propagate incoming (ts ++ [t])
  = if tag_ne (target_type t) "invariant" then target_type t
    else propagate incoming ts.
Proof. unfold propagate. rewrite fold_left_app. reflexivity. Qed.

Lemma propagate_app (incoming : type_tag) l1 l2 :
  propagate incoming (l1 ++ l2) = propagate (propagate incoming l1) l2.
Proof. unfold propagate. apply fold_left_app. Qed.

Lemma Compose_init_propagate ts :
  target_type (fst (Compose_init ts)) = propagate (Some "invariant") ts.
Proof.
  induction ts as [|t ts IH] using rev_ind.
  - rewrite Compose_init_nil. reflexivity.
  - rewrite Compose_init_target_type, propagate_snoc, IH. reflexivity.
Qed.

Lemma propagate_absorb (incoming : type_tag) ts :
  propagate incoming ts
  = if tag_ne (propagate (Some "invariant") ts) "invariant"
    then propagate (Some "invariant") ts
    else incoming.
Proof.
  induction ts as [|t ts IH] using rev_ind.
  - reflexivity.
  - rewrite !propagate_snoc.
    destruct (tag_ne (target_type t) "invariant") eqn:Ht.
    + rewrite Ht. reflexivity.
    + exact IH.
Qed.

Lemma propagate_invariant (incoming : type_tag) ts :
  Forall (fun t => target_type t = Some "invariant") ts ->
  propagate incoming ts = incoming.
Proof.
  induction 1 as [|t ts Ht Hts IH].
  - reflexivity.
  - unfold propagate in *. simpl. rewrite Ht. simpl. exact IH.
Qed.

Lemma last_non_invariant (before after : list (Transformer point)) t :
  Forall (fun u => target_type u = Some "invariant") after ->
  tag_ne (target_type t) "invariant" = true ->
  target_type (fst (Compose_init (before ++ t :: after))) = target_type t.
Proof.
  intros Hafter Ht.
  change (before ++ t :: after) with (before ++ [t] ++ after).
  rewrite app_assoc, Compose_init_propagate, propagate_app.
  rewrite propagate_invariant by exact Hafter.
  rewrite propagate_snoc, Ht. reflexivity.
Qed.

Lemma all_invariant ts :
  target_type (fst (Compose_init ts)) = Some "invariant"
  <-> Forall (fun t => target_type t = Some "invariant") ts.
Proof.
  rewrite Compose_init_propagate. split.
  - induction ts as [|t ts IH] using rev_ind; intros H.
    + constructor.
    + rewrite propagate_snoc in H.
      destruct (tag_ne (target_type t) "invariant") eqn:Ht.
      * rewrite H in Ht. discriminate.
      * apply Forall_app. split; [apply IH; exact H|].
        constructor; [apply tag_ne_false; exact Ht | constructor].
  - apply propagate_invariant.
Qed.

(** X4. The target type of a composite is the target type of the last
    transformer of its list that is not ['invariant'], whatever comes
    before it. *)
Theorem Compose_target_type_last_non_invariant
    (before after : list (Transformer point)) t :
  Forall (fun u => target_type u = Some "invariant") after ->
  tag_ne (target_type t) "invariant" = true ->
  target_type (fst (Compose_init (before ++ t :: after))) = target_type t.
Proof. apply last_non_invariant. Qed.

(** X5. A composite is ['invariant'] exactly when every transformer of its
    list is. *)
Theorem Compose_invariant_iff_all_invariant ts :
  target_type (fst (Compose_init ts)) = Some "invariant"
  <-> Forall (fun t => target_type t = Some "invariant") ts.
Proof. apply all_invariant. Qed.

(** X6. The type of a transformed dimension is the type of the original
    dimension when every transformer of the chain is ['invariant'], and
    otherwise the target type of the last one that is not. *)
Theorem TransformedDimension_type_of_chain
    (before after : list (Transformer point)) t ts (d : Dimension point) :
  (Forall (fun u => target_type u = Some "invariant") ts ->
   TransformedDimension.type
     (TransformedDimension.init (fst (Compose_init ts)) d)
   = Some (dim_type d))
  /\ (Forall (fun u => target_type u = Some "invariant") after ->
      tag_ne (target_type t) "invariant" = true ->
      TransformedDimension.type
        (TransformedDimension.init
           (fst (Compose_init (before ++ t :: after))) d)
      = target_type t).
Proof.
  unfold TransformedDimension.type. simpl. split.
  - intros Hts. apply all_invariant in Hts. rewrite Hts. reflexivity.
  - intros Hafter Ht.
    rewrite last_non_invariant, Ht by assumption. reflexivity.
Qed.

End CompositeMethods.

(** ** Composites and identities inside a list *)

Section Inlining.

Context {point : Type}.
Implicit Types (t : Transformer point) (l ts : list (Transformer point)).

Section Forward.

Context {A : Type}.
Variable method : Transformer point -> A -> result A.
Hypothesis method_Identity : forall a, method Identity a = Ok a.
Hypothesis method_Compose : forall composition apply a,
  method (Compose composition apply) a
  = (v <- method composition a ;; method apply v).

Lemma skip_Identity_thread l1 l3 (a : A) :
  method (fst (Compose_init (l1 ++ [Identity] ++ l3))) a
  = method (fst (Compose_init (l1 ++ l3))) a.
Proof.
  rewrite !(Compose_init_thread method method_Identity method_Compose).
  rewrite (app_assoc l1 [_] l3), !thread_app.
  destruct (thread method l1 a) as [v|e]; cbn [bind]; [|reflexivity].
  rewrite thread_one, method_Identity. reflexivity.
Qed.

End Forward.

Lemma reverse_as_thread ts (y : point) :
  reverse (fst (Compose_init ts)) y = thread reverse (rev ts) y.
Proof. apply Compose_init_reverse. Qed.

Lemma inline_reverse l1 l2 l3 (y : point) :
  reverse (fst (Compose_init (l1 ++ [fst (Compose_init l2)] ++ l3))) y
  = reverse (fst (Compose_init (l1 ++ l2 ++ l3))) y.
Proof.
  rewrite !reverse_as_thread, !rev_app_distr, !thread_app.
  destruct (thread reverse (rev l3) y) as [v|e]; cbn [bind]; [|reflexivity].
  simpl rev. rewrite thread_one, reverse_as_thread. reflexivity.
Qed.

Lemma skip_Identity_reverse l1 l3 (y : point) :
  reverse (fst (Compose_init (l1 ++ [Identity] ++ l3))) y
  = reverse (fst (Compose_init (l1 ++ l3))) y.
Proof.
  rewrite !reverse_as_thread, !rev_app_distr, !thread_app.
  destruct (thread reverse (rev l3) y) as [v|e]; cbn [bind]; reflexivity.
Qed.

Lemma inline_target_type l1 l2 l3 :
  target_type (fst (Compose_init (l1 ++ [fst (Compose_init l2)] ++ l3)))
  = target_type (fst (Compose_init (l1 ++ l2 ++ l3))).
Proof.
  rewrite !Compose_init_propagate, !propagate_app. f_equal.
  rewrite (propagate_absorb _ l2). unfold propagate at 1. simpl.
  rewrite Compose_init_propagate. reflexivity.
Qed.

(** X7. A composite that is an element of a list acts as its own list of
    transformers put in its place: the composite of the list with it and
    the composite of the list with its elements agree on [transform],
    [reverse], [infer_target_shape], [repr_format] and [target_type]. *)
Theorem Compose_of_composites l1 l2 l3 (x : point) (shp : shape)
    (what : string) :
  let nested := fst (Compose_init (l1 ++ [fst (Compose_init l2)] ++ l3)) in
  let flat := fst (Compose_init (l1 ++ l2 ++ l3)) in
  transform nested x = transform flat x
  /\ reverse nested x = reverse flat x
  /\ infer_target_shape nested shp = infer_target_shape flat shp
  /\ repr_format nested what = repr_format flat what
  /\ target_type nested = target_type flat.
Proof.
  intros nested flat. unfold nested, flat.
  split; [apply (inline_thread transform); reflexivity|].
  split; [apply inline_reverse|].
  split; [apply (inline_thread infer_target_shape); reflexivity|].
  split; [apply (inline_thread repr_format); reflexivity|].
  apply inline_target_type.
Qed.

(** X8. An [Identity] anywhere in the list of a composite changes none of
    [transform], [reverse], [infer_target_shape], [repr_format] and
    [target_type]. *)
Theorem Compose_ignores_Identity l1 l3 (x : point) (shp : shape)
    (what : string) :
  let padded := fst (Compose_init (l1 ++ [Identity] ++ l3)) in
  let plain := fst (Compose_init (l1 ++ l3)) in
  transform padded x = transform plain x
  /\ reverse padded x = reverse plain x
  /\ infer_target_shape padded shp = infer_target_shape plain shp
  /\ repr_format padded what = repr_format plain what
  /\ target_type padded = target_type plain.
Proof.
  intros padded plain. unfold padded, plain.
  split; [apply (skip_Identity_thread transform); reflexivity|].
  split; [apply skip_Identity_reverse|].
  split; [apply (skip_Identity_thread infer_target_shape); reflexivity|].
  split; [apply (skip_Identity_thread repr_format); reflexivity|].
  rewrite !Compose_init_propagate, !propagate_app. reflexivity.
Qed.

Lemma spine_of_non_empty ts :
  ts <> [] -> spine (fst (Compose_init ts)) = ts.
Proof.
  induction ts as [|t ts IH] using rev_ind; intros Hne.
  - contradiction.
  - rewrite Compose_init_snoc. simpl.
    destruct ts as [|t0 ts0]; [reflexivity|].
    rewrite IH by discriminate. reflexivity.
Qed.

Lemma Compose_init_object ts :
  ts <> [] -> fst (Compose_init ts) = fold_left Compose ts Identity.
Proof.
  induction ts as [|t ts IH] using rev_ind; intros Hne.
  - contradiction.
  - rewrite Compose_init_snoc, fold_left_app. simpl.
    destruct ts as [|t0 ts0]; [reflexivity|].
    rewrite IH by discriminate. reflexivity.
Qed.

(** C10, as the code has it. The constructor moves the transformers out of
    the caller's list and into the composite: whatever the list held, it is
    empty afterwards, so that it is left as it was only when it was empty
    already; and the object built from a non-empty list is the nest of
    [Compose] objects around an [Identity] that takes the elements in
    order, each one the [apply] attribute of its level, so that read along
    the [composition] attributes the [apply] attributes are the list. The
    composite of the empty list has [Identity] for both attributes. *)
Theorem Compose_init_consumes_list l :
  snd (Compose_init l) = []
  /\ (snd (Compose_init l) = l <-> l = [])
  /\ (l <> [] ->
      fst (Compose_init l) = fold_left Compose l Identity
      /\ spine (fst (Compose_init l)) = l)
  /\ (l = [] -> fst (Compose_init l) = Compose Identity Identity).
Proof.
  split; [apply Compose_init_left_over | split; [|split]].
  - rewrite Compose_init_left_over. split; intros H; congruence.
  - intros Hne. split;
      [apply Compose_init_object | apply spine_of_non_empty]; exact Hne.
  - intros ->. rewrite Compose_init_nil. reflexivity.
Qed.

(** X9. The constructor keeps every transformer of a non-empty list, in
    order: read along the [composition] attributes, the [apply] attributes
    of the composite are the list; for the empty list the one [apply] is an
    [Identity]. *)
Theorem Compose_init_keeps_the_list l t :
  spine (fst (Compose_init (l ++ [t]))) = l ++ [t]
  /\ spine (fst (@Compose_init point [])) = [Identity].
Proof.
  split.
  - apply spine_of_non_empty. destruct l; discriminate.
  - rewrite Compose_init_nil. reflexivity.
Qed.

(** X10. [transform] of a composite is injective on the domain of its
    chain when every transformer of the list has [reverse] undo its
    [transform] on its domain. *)
Theorem Compose_transform_injective
    (dom : Transformer point -> point -> Prop) ts (x1 x2 y : point) :
  Forall (fun t => round_trip_on (dom t) t) ts ->
  chain_domain dom ts x1 ->
  chain_domain dom ts x2 ->
  transform (fst (Compose_init ts)) x1 = Ok y ->
  transform (fst (Compose_init ts)) x2 = Ok y ->
  x1 = x2.
Proof.
  intros Hts H1 H2 Hy1 Hy2.
  rewrite Compose_init_transform in Hy1, Hy2.
  destruct (in_order_round_trip dom ts Hts x1 H1) as (y1 & Hf1 & Hb1).
  destruct (in_order_round_trip dom ts Hts x2 H2) as (y2 & Hf2 & Hb2).
  assert (y1 = y) by congruence. assert (y2 = y) by congruence. subst y1 y2.
  congruence.
Qed.

End Inlining.

(** X2, for two classes [Shift] and [Double] with the base class's
    [repr_format]. *)
Lemma Compose_repr_format_nests_names_witness :
  let classes :=
    [minimal_subclass "Shift" (Some "invariant")
       (fun p : Z => Ok (p + 1)%Z) (fun p => Ok (p - 1)%Z);
     minimal_subclass "Double" (Some "integer")
       (fun p : Z => Ok (2 * p)%Z) (fun p => Ok (p / 2)%Z)] in
  repr_format (fst (Compose_init (map Custom classes))) "Integer(name=k)"
  = Ok "Double(Shift(Integer(name=k)))".
Proof.
  intros classes.
  apply (Compose_repr_format_nests_names classes "Integer(name=k)").
  repeat (apply Forall_cons; [intros w; reflexivity|]). apply Forall_nil.
Defined.

(** X3, for [k] seen through [[Shift; Double]]. *)
Lemma shape_kept_by_default_witness :
  TransformedDimension.shape
    (TransformedDimension.init
       (fst (Compose_init [Samples.Shift; Samples.Double])) Samples.k_integer)
  = Ok [].
Proof.
  apply (shape_kept_by_default [Samples.Shift; Samples.Double]
           Samples.k_integer).
  repeat (apply Forall_cons; [intros shp; reflexivity|]). apply Forall_nil.
Defined.

(** X4, for [Double] followed by two invariant transformers. *)
Lemma Compose_target_type_last_non_invariant_witness :
  target_type
    (fst (Compose_init
            ([Samples.Shift] ++ Samples.Double :: [Samples.Shift; Identity])))
  = Some "integer".
Proof.
  apply (Compose_target_type_last_non_invariant
           [Samples.Shift] [Samples.Shift; Identity] Samples.Double).
  - repeat (apply Forall_cons; [reflexivity|]). apply Forall_nil.
  - reflexivity.
Defined.

(** X6, for the integer dimension [m] behind invariant transformers and
    behind a chain whose last typed step is ['real']. *)
Lemma TransformedDimension_type_of_chain_witness :
  let Scale := Custom (minimal_subclass "Scale" (Some "real")
                         (fun p : Z => Ok p) (fun p => Ok p)) in
  TransformedDimension.type
    (TransformedDimension.init
       (fst (Compose_init [Samples.Shift; Identity])) Samples.m_integer)
  = Some "integer"
  /\ TransformedDimension.type
       (TransformedDimension.init
          (fst (Compose_init ([Samples.Double] ++ Scale :: [Samples.Shift])))
          Samples.m_integer)
     = Some "real".
Proof.
  intros Scale.
  destruct (TransformedDimension_type_of_chain
              [Samples.Double] [Samples.Shift] Scale [Samples.Shift; Identity]
              Samples.m_integer) as [Hall Hlast].
  split.
  - apply Hall. repeat (apply Forall_cons; [reflexivity|]). apply Forall_nil.
  - apply Hlast; [|reflexivity].
    repeat (apply Forall_cons; [reflexivity|]). apply Forall_nil.
Defined.

(** X10, for [[Shift; Double]] and the point 3. *)
Lemma Compose_transform_injective_witness :
  transform (fst (Compose_init [Samples.Shift; Samples.Double])) 3%Z = Ok 8%Z
  /\ (3 = 3)%Z.
Proof.
  assert (Hts : Forall (fun t => round_trip_on (fun _ : Z => True) t)
                       [Samples.Shift; Samples.Double]).
  { apply Forall_cons; [|apply Forall_cons; [|apply Forall_nil]];
      intros x _; eexists; (split; [reflexivity|]).
    - change (Ok (x + 1 - 1)%Z = Ok x). f_equal. lia.
    - change (Ok (2 * x / 2)%Z = Ok x). f_equal.
      rewrite Z.mul_comm. apply Z.div_mul. lia. }
  assert (Hx : chain_domain (fun _ _ => True)
                 [Samples.Shift; Samples.Double] 3%Z) by (simpl; auto).
  assert (Hy : transform (fst (Compose_init [Samples.Shift; Samples.Double]))
                 3%Z = Ok 8%Z) by reflexivity.
  split; [exact Hy|].
  exact (Compose_transform_injective (fun _ _ => True) _ 3%Z 3%Z 8%Z
           Hts Hx Hx Hy Hy).
Defined.

(** ** Transformed dimensions *)

Section DimensionProperties.

Context {point : Type}.
Implicit Types (self : TransformedDimension.t point) (d : Dimension point).

Lemma comprehension_same {A : Type} (f : A -> result A) (xs : list A) :
  (forall x, f x = Ok x) -> comprehension f xs = Ok xs.
Proof.
  intros Hf. induction xs as [|x xs IH]; simpl.
  - reflexivity.
  - rewrite Hf, IH. reflexivity.
Qed.

Lemma comprehension_first_failure {A B : Type} (f : A -> result B)
    (good : list A) (bad : A) (rest : list A) (e : exn) :
  (forall x, In x good -> exists y, f x = Ok y) ->
  f bad = Raise e ->
  comprehension f (good ++ bad :: rest) = Raise e.
Proof.
  intros Hgood Hbad. induction good as [|x good IH]; simpl.
  - rewrite Hbad. reflexivity.
  - destruct (Hgood x (or_introl eq_refl)) as (y & Hy). rewrite Hy. simpl.
    rewrite IH; [reflexivity | intros; apply Hgood; right; assumption].
Qed.

(** X11. Every sample of a transformed dimension is contained in it, when
    the original dimension contains its own draws and [reverse] undoes
    [transform] on them. *)
Theorem samples_are_contained self (n : Z) (seed : option Z)
    (xs ys : list point) :
  dim_sample (TransformedDimension.original_dimension self) n seed = Ok xs ->
  (forall x, In x xs ->
     dim_contains (TransformedDimension.original_dimension self) x = Ok true) ->
  (forall x y, In x xs -> TransformedDimension.transform self x = Ok y ->
     TransformedDimension.reverse self y = Ok x) ->
  TransformedDimension.sample self n seed = Ok ys ->
  Forall (fun y => TransformedDimension.contains self y = Ok true) ys.
Proof.
  intros Hdraw Hin Hback Hsample.
  unfold TransformedDimension.sample in Hsample.
  rewrite Hdraw in Hsample. simpl in Hsample.
  apply comprehension_Ok_iff in Hsample.
  clear Hdraw. induction Hsample as [|x y xs ys Hxy Hrest IH].
  - constructor.
  - constructor.
    + unfold TransformedDimension.contains.
      rewrite (Hback x y (or_introl eq_refl) Hxy). simpl.
      apply Hin. left. reflexivity.
    + apply IH.
      * intros x0 H0. apply Hin. right. exact H0.
      * intros x0 y0 H0. apply Hback. right. exact H0.
Qed.

(** X12. Through a composite of transformers whose [reverse] undoes their
    [transform], [interval] returns bounds that [reverse] maps back to the
    bounds of the original dimension. *)
Theorem interval_bounds_map_back (dom : Transformer point -> point -> Prop)
    (ts : list (Transformer point)) d (alpha : float) (low high : point) :
  let self := TransformedDimension.init (fst (Compose_init ts)) d in
  Forall (fun t => round_trip_on (dom t) t) ts ->
  dim_interval d alpha = Ok (low, high) ->
  chain_domain dom ts low ->
  chain_domain dom ts high ->
  exists low' high',
    TransformedDimension.interval self alpha = Ok (low', high')
    /\ TransformedDimension.reverse self low' = Ok low
    /\ TransformedDimension.reverse self high' = Ok high.
Proof.
  intros self Hts Hbounds Hlow Hhigh.
  destruct (in_order_round_trip dom ts Hts low Hlow) as (low' & Hl & Hlb).
  destruct (in_order_round_trip dom ts Hts high Hhigh) as (high' & Hh & Hhb).
  rewrite <- Compose_init_transform in Hl, Hh.
  rewrite <- Compose_init_reverse in Hlb, Hhb.
  exists low', high'.
  unfold TransformedDimension.interval, TransformedDimension.transform,
    TransformedDimension.reverse, self. simpl.
  rewrite Hbounds. simpl. rewrite Hl. simpl. rewrite Hh. simpl. auto.
Qed.

(** X13. When [transform] raises on a sample of the original draw and
    returns on those before it, [sample] raises that exception. *)
Theorem sample_raises_first_failure self (n : Z) (seed : option Z)
    (good : list point) (bad : point) (rest : list point) (e : exn) :
  dim_sample (TransformedDimension.original_dimension self) n seed
  = Ok (good ++ bad :: rest) ->
  (forall x, In x good ->
     exists y, TransformedDimension.transform self x = Ok y) ->
  TransformedDimension.transform self bad = Raise e ->
  TransformedDimension.sample self n seed = Raise e.
Proof.
  intros Hdraw Hgood Hbad. unfold TransformedDimension.sample.
  rewrite Hdraw. simpl. apply comprehension_first_failure; assumption.
Qed.

(** X14. The dimension that [build_required_space] makes for an empty list
    of requirements answers as the original dimension does: same name,
    type, shape and representation, same samples, interval and
    membership. *)
Theorem wrap_unchanged_is_transparent d (n : Z) (seed : option Z)
    (alpha : float) (pt : point) :
  TransformedDimension.name (wrap_unchanged d) = dim_name d
  /\ TransformedDimension.type (wrap_unchanged d) = Some (dim_type d)
  /\ TransformedDimension.shape (wrap_unchanged d) = Ok (dim_shape d)
  /\ TransformedDimension.repr (wrap_unchanged d) = Ok (dim_repr d)
  /\ TransformedDimension.sample (wrap_unchanged d) n seed = dim_sample d n seed
  /\ TransformedDimension.interval (wrap_unchanged d) alpha
     = dim_interval d alpha
  /\ TransformedDimension.contains (wrap_unchanged d) pt = dim_contains d pt.
Proof.
  unfold wrap_unchanged. rewrite Compose_init_nil.
  repeat split; try reflexivity.
  - unfold TransformedDimension.sample. simpl.
    destruct (dim_sample d n seed) as [xs|e]; simpl; [|reflexivity].
    apply comprehension_same. reflexivity.
  - unfold TransformedDimension.interval. simpl.
    destruct (dim_interval d alpha) as [[low high]|e]; reflexivity.
Qed.

End DimensionProperties.

Lemma Shift_Double_round_trip :
  Forall (fun t => round_trip_on (fun _ : Z => True) t)
         [Samples.Shift; Samples.Double].
Proof.
  apply Forall_cons; [|apply Forall_cons; [|apply Forall_nil]];
    intros x _; eexists; (split; [reflexivity|]).
  - change (Ok (x + 1 - 1)%Z = Ok x). f_equal. lia.
  - change (Ok (2 * x / 2)%Z = Ok x). f_equal.
    rewrite Z.mul_comm. apply Z.div_mul. lia.
Qed.

(** X11, for three seeded draws of [k] seen through [[Shift; Double]]. *)
Lemma samples_are_contained_witness :
  let self := TransformedDimension.init
                (fst (Compose_init [Samples.Shift; Samples.Double]))
                Samples.k_integer in
  TransformedDimension.sample self 3%Z (Some 10%Z) = Ok [22; 24; 26]%Z
  /\ Forall (fun y => TransformedDimension.contains self y = Ok true)
            [22; 24; 26]%Z.
Proof.
  intros self.
  assert (Hsample : TransformedDimension.sample self 3%Z (Some 10%Z)
                    = Ok [22; 24; 26]%Z) by reflexivity.
  split; [exact Hsample|].
  apply (samples_are_contained self 3%Z (Some 10%Z) [10; 11; 12]%Z).
  - reflexivity.
  - intros x Hin. simpl in Hin.
    destruct Hin as [<-|[<-|[<-|[]]]]; reflexivity.
  - intros x y Hin Hy. simpl in Hin.
    destruct Hin as [<-|[<-|[<-|[]]]]; vm_compute in Hy; inversion Hy;
      reflexivity.
  - exact Hsample.
Defined.

(** X12, for the interval [(0, 100)] of [k] seen through
    [[Shift; Double]]. *)
Lemma interval_bounds_map_back_witness :
  let self := TransformedDimension.init
                (fst (Compose_init [Samples.Shift; Samples.Double]))
                Samples.k_integer in
  dim_interval Samples.k_integer 1.0%float = Ok (0, 100)%Z
  /\ exists low' high',
       TransformedDimension.interval self 1.0%float = Ok (low', high')
       /\ TransformedDimension.reverse self low' = Ok 0%Z
       /\ TransformedDimension.reverse self high' = Ok 100%Z.
Proof.
  intros self. split; [reflexivity|].
  apply (interval_bounds_map_back (fun _ _ => True)
           [Samples.Shift; Samples.Double] Samples.k_integer 1.0%float).
  - exact Shift_Double_round_trip.
  - reflexivity.
  - simpl. auto.
  - simpl. auto.
Defined.

(** X13, for a transformer that refuses the third draw. *)
Lemma sample_raises_first_failure_witness :
  let Capped :=
    Custom (minimal_subclass "Capped" (Some "invariant")
              (fun p : Z => if (p <? 12)%Z then Ok p
                            else Raise (Exception "out of range"))
              (fun p => Ok p)) in
  let self := TransformedDimension.init Capped Samples.k_integer in
  dim_sample Samples.k_integer 3%Z (Some 10%Z) = Ok ([10; 11] ++ 12 :: [])%Z
  /\ TransformedDimension.sample self 3%Z (Some 10%Z)
     = Raise (Exception "out of range").
Proof.
  intros Capped self. split; [reflexivity|].
  apply (sample_raises_first_failure self 3%Z (Some 10%Z) [10; 11]%Z 12%Z []).
  - reflexivity.
  - intros x Hin. simpl in Hin.
    destruct Hin as [<-|[<-|[]]]; eexists; reflexivity.
  - reflexivity.
Defined.

(** ** Points and dimensions by position *)

Section SpacePoints.

Context {point D : Type}.
Variable g : D -> point -> result point.

Lemma enumerate_from_prefix (dims : list D) (pre rest : list point) :
  length dims <= length rest ->
  comprehension
    (fun '(i, dim) => c <- getitem (pre ++ rest) i ;; g dim c)
    (enumerate_from (length pre) dims)
  = comprehension (fun '(dim, c) => g dim c) (combine dims rest).
Proof.
  revert pre rest. induction dims as [|dim dims IH]; intros pre rest Hlen.
  - reflexivity.
  - destruct rest as [|c rest]; [simpl in Hlen; lia|].
    simpl. rewrite getitem_middle. simpl.
    destruct (g dim c) as [y|e]; simpl; [|reflexivity].
    specialize (IH (pre ++ [c]) rest).
    rewrite <- app_assoc, length_app, Nat.add_1_r in IH. simpl in IH.
    rewrite IH by (simpl in Hlen; lia). reflexivity.
Qed.

Lemma combine_longer (dims : list D) (pt extra : list point) :
  length pt = length dims ->
  combine dims (pt ++ extra) = combine dims pt.
Proof.
  revert pt. induction dims as [|dim dims IH]; intros [|c pt] Hlen;
    simpl in *; try discriminate; try reflexivity.
  f_equal. apply IH. lia.
Qed.

Lemma enumerate_ignores_extra (dims : list D) (pt extra : list point) :
  length pt = length dims ->
  comprehension (fun '(i, dim) => c <- getitem (pt ++ extra) i ;; g dim c)
    (enumerate dims)
  = comprehension (fun '(i, dim) => c <- getitem pt i ;; g dim c)
      (enumerate dims).
Proof.
  intros Hlen. unfold enumerate.
  pose proof (enumerate_from_prefix dims [] (pt ++ extra)) as Hlong.
  pose proof (enumerate_from_prefix dims [] pt) as Hexact.
  simpl in Hlong, Hexact.
  rewrite Hlong by (rewrite length_app; lia).
  rewrite Hexact by lia.
  rewrite combine_longer by exact Hlen. reflexivity.
Qed.

Lemma enumerate_from_short_never_Ok (dims : list D) (pre rest : list point) :
  length rest < length dims ->
  forall out,
    comprehension
      (fun '(i, dim) => c <- getitem (pre ++ rest) i ;; g dim c)
      (enumerate_from (length pre) dims)
    <> Ok out.
Proof.
  revert pre rest. induction dims as [|dim dims IH]; intros pre rest Hlen out.
  - simpl in Hlen. lia.
  - destruct rest as [|c rest]; simpl.
    + unfold getitem. rewrite app_nil_r.
      rewrite (proj2 (nth_error_None pre (length pre))) by lia.
      discriminate.
    + rewrite getitem_middle. simpl.
      destruct (g dim c) as [y|e]; simpl; [|discriminate].
      specialize (IH (pre ++ [c]) rest).
      rewrite <- app_assoc, length_app, Nat.add_1_r in IH. simpl in IH.
      destruct (comprehension _ (enumerate_from (S (length pre)) dims))
        as [ys|e] eqn:E; simpl; [|discriminate].
      exfalso. apply (IH ltac:(simpl in Hlen; lia) ys). reflexivity.
Qed.

Lemma enumerate_from_short_IndexError (dims : list D) (pre rest : list point) :
  length rest < length dims ->
  (forall dim c, In (dim, c) (combine dims rest) -> exists y, g dim c = Ok y) ->
  comprehension
    (fun '(i, dim) => c <- getitem (pre ++ rest) i ;; g dim c)
    (enumerate_from (length pre) dims)
  = Raise IndexError.
Proof.
  revert pre rest. induction dims as [|dim dims IH]; intros pre rest Hlen Hok.
  - simpl in Hlen. lia.
  - destruct rest as [|c rest]; simpl.
    + unfold getitem. rewrite app_nil_r.
      rewrite (proj2 (nth_error_None pre (length pre))) by lia.
      reflexivity.
    + rewrite getitem_middle. simpl.
      destruct (Hok dim c (or_introl eq_refl)) as (y & Hy). rewrite Hy. simpl.
      specialize (IH (pre ++ [c]) rest).
      rewrite <- app_assoc, length_app, Nat.add_1_r in IH. simpl in IH.
      rewrite IH; [reflexivity | simpl in Hlen; lia |].
      intros dim' c' Hin. apply Hok. right. exact Hin.
Qed.

End SpacePoints.

Section SpaceRoundTrip.

Context {point D : Type}.
Variables g h : D -> point -> result point.

Lemma combine_round_trip (dims : list D) (pt : list point) :
  Forall2 (fun dim c => exists y, g dim c = Ok y /\ h dim y = Ok c) dims pt ->
  exists out,
    comprehension (fun '(dim, c) => g dim c) (combine dims pt) = Ok out
    /\ comprehension (fun '(dim, c) => h dim c) (combine dims out) = Ok pt
    /\ length out = length dims.
Proof.
  induction 1 as [|dim c dims pt (y & Hg & Hh) Hrest (out & Hout & Hback & Hlen)].
  - exists []. repeat split.
  - exists (y :: out). simpl.
    rewrite Hg, Hout, Hh, Hback, Hlen. repeat split.
Qed.

End SpaceRoundTrip.

(** ** Transformed spaces *)

Section SpaceProperties.

Context {point : Type}.
Implicit Types (ts : TransformedSpace.t point) (pt : list point).

(** X15. On a point with fewer coordinates than the space has dimensions,
    [transform] and [reverse] never return; when the transformers accept
    the coordinates that are there, the exception is the [IndexError] of
    the first missing coordinate. *)
Theorem TransformedSpace_short_point ts pt :
  length pt < length (TransformedSpace.values ts) ->
  (forall out, TransformedSpace.transform ts pt <> Ok out)
  /\ (forall out, TransformedSpace.reverse ts pt <> Ok out)
  /\ ((forall dim c, In (dim, c) (combine (TransformedSpace.values ts) pt) ->
         exists y, TransformedDimension.transform dim c = Ok y) ->
      TransformedSpace.transform ts pt = Raise IndexError)
  /\ ((forall dim c, In (dim, c) (combine (TransformedSpace.values ts) pt) ->
         exists y, TransformedDimension.reverse dim c = Ok y) ->
      TransformedSpace.reverse ts pt = Raise IndexError).
Proof.
  intros Hshort.
  unfold TransformedSpace.transform, TransformedSpace.reverse, enumerate.
  repeat split.
  - apply (enumerate_from_short_never_Ok _ _ [] pt Hshort).
  - apply (enumerate_from_short_never_Ok _ _ [] pt Hshort).
  - apply (enumerate_from_short_IndexError _ _ [] pt Hshort).
  - apply (enumerate_from_short_IndexError _ _ [] pt Hshort).
Qed.

(** X16. Coordinates beyond the number of dimensions are ignored by
    [transform] and [reverse]. *)
Theorem TransformedSpace_ignores_extra_coordinates ts pt (extra : list point) :
  length pt = length (TransformedSpace.values ts) ->
  TransformedSpace.transform ts (pt ++ extra) = TransformedSpace.transform ts pt
  /\ TransformedSpace.reverse ts (pt ++ extra) = TransformedSpace.reverse ts pt.
Proof.
  intros Hlen. unfold TransformedSpace.transform, TransformedSpace.reverse.
  split; apply enumerate_ignores_extra; exact Hlen.
Qed.

(** X17. [reverse] of a space undoes its [transform] on every point whose
    coordinates the dimensions' [reverse] map back, one dimension per
    coordinate. *)
Theorem TransformedSpace_round_trip ts pt :
  Forall2
    (fun dim c => exists y, TransformedDimension.transform dim c = Ok y
                            /\ TransformedDimension.reverse dim y = Ok c)
    (TransformedSpace.values ts) pt ->
  exists out,
    TransformedSpace.transform ts pt = Ok out
    /\ TransformedSpace.reverse ts out = Ok pt.
Proof.
  intros Hall.
  pose proof (Forall2_length Hall) as Hlen.
  destruct (combine_round_trip _ _ _ _ Hall) as (out & Hout & Hback & Hlo).
  exists out. unfold TransformedSpace.transform, TransformedSpace.reverse.
  rewrite !enumerate_positional by congruence. auto.
Qed.

(** X18. [build_required_space] returns a space exactly when the list of
    requirements is empty or the original space has no dimension. *)
Theorem build_required_space_returns_iff (reqs : requirements_arg)
    (space : list (Dimension point)) :
  (exists ts, build_required_space reqs space = Ok ts)
  <-> (normalize_requirements reqs = [] \/ space = []).
Proof.
  split.
  - intros (ts & Hbuild).
    destruct (normalize_requirements reqs) as [|r rs] eqn:Hreqs;
      [left; reflexivity|].
    destruct space as [|d space]; [right; reflexivity|].
    rewrite build_decided_by_first_dimension in Hbuild; [discriminate|].
    rewrite Hreqs. discriminate.
  - intros [Hreqs | ->].
    + rewrite build_without_requirements by exact Hreqs. eauto.
    + exists TransformedSpace.empty. reflexivity.
Qed.

(** X19. The outcome of [build_required_space] does not depend on what the
    requirements are, as long as there is one. *)
Theorem build_required_space_ignores_requirements
    (reqs reqs' : requirements_arg) (space : list (Dimension point)) :
  normalize_requirements reqs <> [] ->
  normalize_requirements reqs' <> [] ->
  build_required_space reqs space = build_required_space reqs' space.
Proof.
  intros Hreqs Hreqs'. destruct space as [|d space].
  - reflexivity.
  - rewrite !build_decided_by_first_dimension by assumption. reflexivity.
Qed.

End SpaceProperties.

(** X15, X16 and X17 are witnessed on the space of [k] behind [Shift] and
    [m] behind [Double]. *)
Lemma TransformedSpace_short_point_witness :
  let k' := TransformedDimension.init Samples.Shift Samples.k_integer in
  let m' := TransformedDimension.init Samples.Double Samples.m_integer in
  let ts := TransformedSpace.register
              (TransformedSpace.register TransformedSpace.empty k') m' in
  length [3%Z] < length (TransformedSpace.values ts)
  /\ TransformedSpace.transform ts [3%Z] = Raise IndexError
  /\ TransformedSpace.reverse ts [3%Z] = Raise IndexError.
Proof.
  intros k' m' ts.
  assert (Hshort : length [3%Z] < length (TransformedSpace.values ts))
    by (simpl; lia).
  destruct (TransformedSpace_short_point ts [3%Z] Hshort)
    as (_ & _ & Hforward & Hbackward).
  split; [exact Hshort | split].
  - apply Hforward. intros dim c Hin. simpl in Hin.
    destruct Hin as [Heq|[]]. inversion Heq; subst. eexists; reflexivity.
  - apply Hbackward. intros dim c Hin. simpl in Hin.
    destruct Hin as [Heq|[]]. inversion Heq; subst. eexists; reflexivity.
Defined.

Lemma TransformedSpace_ignores_extra_coordinates_witness :
  let k' := TransformedDimension.init Samples.Shift Samples.k_integer in
  let m' := TransformedDimension.init Samples.Double Samples.m_integer in
  let ts := TransformedSpace.register
              (TransformedSpace.register TransformedSpace.empty k') m' in
  TransformedSpace.transform ts ([3; 4] ++ [5; 6])%Z
  = TransformedSpace.transform ts [3; 4]%Z
  /\ TransformedSpace.transform ts [3; 4]%Z = Ok [4; 8]%Z.
Proof.
  intros k' m' ts. split; [|reflexivity].
  apply (TransformedSpace_ignores_extra_coordinates ts [3; 4]%Z [5; 6]%Z).
  reflexivity.
Defined.

Lemma TransformedSpace_round_trip_witness :
  let k' := TransformedDimension.init Samples.Shift Samples.k_integer in
  let m' := TransformedDimension.init Samples.Double Samples.m_integer in
  let ts := TransformedSpace.register
              (TransformedSpace.register TransformedSpace.empty k') m' in
  exists out,
    TransformedSpace.transform ts [3; 4]%Z = Ok out
    /\ TransformedSpace.reverse ts out = Ok [3; 4]%Z.
Proof.
  intros k' m' ts.
  apply (TransformedSpace_round_trip ts [3; 4]%Z).
  repeat (apply Forall2_cons; [eexists; split; reflexivity|]).
  apply Forall2_nil.
Defined.

(** X19, for the real dimension [x]. *)
Lemma build_required_space_ignores_requirements_witness :
  build_required_space (RequirementList ["real"]) [Samples.x_real]
  = build_required_space (Requirement "integer") [Samples.x_real].
Proof.
  apply (build_required_space_ignores_requirements
           (RequirementList ["real"]) (Requirement "integer")
           [Samples.x_real]); simpl; discriminate.
Defined.

(** C10, as the code has it, on the list [[Shift; Double]]: the list is
    left empty and both transformers are in the composite, [Double]
    outermost. *)
Lemma Compose_init_consumes_list_witness :
  snd (Compose_init [Samples.Shift; Samples.Double]) = []
  /\ fst (Compose_init [Samples.Shift; Samples.Double])
     = Compose (Compose Identity Samples.Shift) Samples.Double
  /\ spine (fst (Compose_init [Samples.Shift; Samples.Double]))
     = [Samples.Shift; Samples.Double].
Proof.
  destruct (Compose_init_consumes_list [Samples.Shift; Samples.Double])
    as (Hempty & _ & Hobject & _).
  destruct (Hobject ltac:(discriminate)) as [Hnest Hspine].
  split; [exact Hempty | split; [exact Hnest | exact Hspine]].
Defined.
